(** * Astar chain specification: genesis assembly

    Shallow embedding of [bin/collator/src/parachain/chain_spec/astar.rs]:
    [get_chain_spec], [session_keys], [make_genesis] and
    [get_account_id_from_seed], together with the records of the runtime's
    [GenesisConfig] that [make_genesis] fills in.

    The values that the file takes from its collaborators (the runtime
    crate [astar_runtime] and the helper [get_from_seed] of the parent
    module) are the variables of the section [Runtime]: the unit [ASTR],
    the wasm blob returned by [wasm_binary_unwrap], the address list of
    [Precompiles::used_addresses], the seed derivations and the default
    inflation parameters.  Every result below is proved for all of them. *)

From Stdlib Require Import String Lia NArith.
From stdpp Require Import base gmap list.

Open Scope N_scope.

(** ** Primitive types *)

(** Rust's [u32], [u16] and [u128] (the runtime's [Balance]); the constants
    of this file are far below their bounds, so no wrap-around occurs. *)
Abbreviation u16 := N.
Abbreviation u32 := N.
Abbreviation Balance := N.
(** [AccountId32], sr25519 and aura public keys, [H160], [H256], [U256]:
    fixed-width byte strings read as unsigned integers. *)
Abbreviation AccountId := N.
Abbreviation AuraId := N.
Abbreviation Sr25519Public := N.
Abbreviation H160 := N.
Abbreviation H256 := N.
Abbreviation U256 := N.

(** [cumulus_primitives_core::ParaId] is a newtype over [u32];
    [From<u32>] wraps the value unchanged. *)
Abbreviation ParaId := N.
Definition ParaId_from (x : u32) : ParaId := x.

(** [sp_runtime::Permill]: parts per million. *)
Record Permill := Permill_ { permill_parts : u32 }.

Definition Permill_one : Permill := Permill_ 1000000.

(** [Permill::from_percent]: the argument is capped at 100. *)
Definition Permill_from_percent (x : u32) : Permill :=
  let x := if 100 <? x then 100 else x in
  Permill_ (x * (1000000 / 100)).

(** Exact sum of a sequence of [Permill]s, in parts. *)
Definition permill_sum (ps : list Permill) : N :=
  foldr (fun p acc => permill_parts p + acc) 0 ps.

(** ** Runtime genesis records *)

Module SessionKeys.
Record t := { aura : AuraId }.
End SessionKeys.

Inductive TierThreshold :=
| DynamicTvlAmount (amount : Balance) (minimum_amount : Balance)
| FixedTvlAmount (amount : Balance).

(** Opaque fixed-point parameters of the inflation pallet. *)
Abbreviation InflationParameters := (list N).

Module GenesisAccount.
(** [fp_evm::GenesisAccount] *)
Record t := {
  nonce : U256;
  balance : U256;
  storage : gmap H256 H256;
  code : list Byte.byte
}.
End GenesisAccount.

Module SystemConfig.
Record t := { code : list Byte.byte }.
End SystemConfig.

Module SudoConfig.
Record t := { key : option AccountId }.
End SudoConfig.

Module ParachainInfoConfig.
Record t := { parachain_id : ParaId }.
End ParachainInfoConfig.

Module BalancesConfig.
Record t := { balances : list (AccountId * Balance) }.
End BalancesConfig.

Module VestingConfig.
(** (who, begin, length, liquid) *)
Record t := { vesting : list (AccountId * u32 * u32 * Balance) }.
End VestingConfig.

Module SessionConfig.
Record t := { keys : list (AccountId * AccountId * SessionKeys.t) }.
End SessionConfig.

Module AuraConfig.
Record t := { authorities : list AuraId }.
End AuraConfig.

Module CollatorSelectionConfig.
Record t := {
  desired_candidates : u32;
  candidacy_bond : Balance;
  invulnerables : list AccountId
}.
End CollatorSelectionConfig.

Module EVMConfig.
(** [accounts] is a [BTreeMap<H160, GenesisAccount>]. *)
Record t := { accounts : gmap H160 GenesisAccount.t }.
End EVMConfig.

Module DappStakingConfig.
Record t := {
  reward_portion : list Permill;
  slot_distribution : list Permill;
  tier_thresholds : list TierThreshold;
  slots_per_tier : list u16
}.
End DappStakingConfig.

Module InflationConfig.
Record t := { params : InflationParameters }.
End InflationConfig.

Module GenesisConfig.
(** Sub-states set to [Default::default()] are modelled by [unit]. *)
Record t := {
  system : SystemConfig.t;
  sudo : SudoConfig.t;
  parachain_info : ParachainInfoConfig.t;
  balances : BalancesConfig.t;
  vesting : VestingConfig.t;
  session : SessionConfig.t;
  aura : AuraConfig.t;
  aura_ext : unit;
  collator_selection : CollatorSelectionConfig.t;
  evm : EVMConfig.t;
  ethereum : unit;
  polkadot_xcm : unit;
  assets : unit;
  parachain_system : unit;
  transaction_payment : unit;
  dapp_staking : DappStakingConfig.t;
  inflation : InflationConfig.t
}.
End GenesisConfig.

(** [BTreeMap::from_iter]: entries are inserted in order, a later entry for
    a key replacing an earlier one. *)
Definition collect_btree_map {V} (kvs : list (H160 * V)) : gmap H160 V :=
  foldl (fun m kv => <[kv.1 := kv.2]> m) ∅ kvs.

(** ** Chain spec records *)

Inductive ChainType := Development | Local | Live | Custom (s : string).

Inductive JsonValue := JString (s : string) | JNumber (n : N).

(** [serde_json::Map::insert]: replaces the value of an existing key,
    appends a new key otherwise. *)
Fixpoint json_map_insert (k : string) (v : JsonValue)
    (m : list (string * JsonValue)) : list (string * JsonValue) :=
  match m with
  | [] => [(k, v)]
  | (k', v') :: m' =>
      if String.eqb k k' then (k, v) :: m' else (k', v') :: json_map_insert k v m'
  end.

Module Extensions.
Record t := { bad_blocks : list H256; relay_chain : string; para_id : u32 }.
End Extensions.

Module ChainSpec.
(** [sc_service::GenericChainSpec<GenesisConfig, Extensions>]; the
    genesis is stored as the deferred producer closure. *)
Record t := {
  name : string;
  id : string;
  chain_type : ChainType;
  genesis : unit -> GenesisConfig.t;
  boot_nodes : list string;
  telemetry_endpoints : option (list (string * N));
  protocol_id : option string;
  fork_id : option string;
  properties : option (list (string * JsonValue));
  extensions : Extensions.t
}.

(** [GenericChainSpec::from_genesis] *)
Definition from_genesis name id chain_type constructor boot_nodes
    telemetry_endpoints protocol_id fork_id properties extensions : t :=
  {| name := name; id := id; chain_type := chain_type;
     genesis := constructor; boot_nodes := boot_nodes;
     telemetry_endpoints := telemetry_endpoints; protocol_id := protocol_id;
     fork_id := fork_id; properties := properties; extensions := extensions |}.
End ChainSpec.

Definition PARA_ID : u32 := 2006.

(** ** A concrete instance of the collaborators

    Used only to evaluate the embedding at explicit inputs: one token is
    [10^18] units (the 18 [tokenDecimals] of the chain properties), three
    precompile addresses, and seed derivations that tell the two well-known
    development seeds apart. *)
Definition dev_ASTR : Balance := 10 ^ 18.

Definition dev_wasm_binary : list Byte.byte := [Byte.x00; Byte.x61; Byte.x73; Byte.x6d].

Definition dev_used_addresses : list H160 := [1; 2; 1024].

Definition dev_seed_index (seed : string) : N :=
  if String.eqb seed "Alice" then 1
  else if String.eqb seed "Bob" then 2
  else if String.eqb seed "Charlie" then 3
  else 0.

Definition dev_get_from_seed_sr25519 (seed : string) : Sr25519Public :=
  1000 + dev_seed_index seed.

Definition dev_get_from_seed_aura (seed : string) : AuraId :=
  2000 + dev_seed_index seed.

Definition dev_into_account (p : Sr25519Public) : AccountId := p.

Definition dev_inflation_default : InflationParameters := [].

Section Runtime.

(** [astar_runtime::ASTR], one token in the smallest unit. *)
Variable ASTR : Balance.
(** [astar_runtime::wasm_binary_unwrap()] *)
Variable wasm_binary_unwrap : list Byte.byte.
(** [astar_runtime::Precompiles::used_addresses()] *)
Variable used_addresses : list H160.
(** [super::get_from_seed::<sr25519::Public>] and [super::get_from_seed::<AuraId>] *)
Variable get_from_seed_sr25519 : string -> Sr25519Public.
Variable get_from_seed_aura : string -> AuraId.
(** [AccountPublic::from(_).into_account()] *)
Variable into_account : Sr25519Public -> AccountId.
(** [InflationParameters::default()] *)
Variable InflationParameters_default : InflationParameters.

(** Helper function to generate an account ID from seed. *)
Definition get_account_id_from_seed (seed : string) : AccountId :=
  into_account (get_from_seed_sr25519 seed).

Definition session_keys (aura : AuraId) : SessionKeys.t :=
  {| SessionKeys.aura := aura |}.

(** The [authorities] vector built at the start of [make_genesis]. *)
Definition make_genesis_authorities : list (AccountId * AuraId) :=
  [(get_account_id_from_seed "Alice", get_from_seed_aura "Alice");
   (get_account_id_from_seed "Bob", get_from_seed_aura "Bob")].

(** (PUSH1 0x00 PUSH1 0x00 REVERT) *)
Definition revert_bytecode : list Byte.byte :=
  [Byte.x60; Byte.x00; Byte.x60; Byte.x00; Byte.xfd].

Definition make_genesis (balances : list (AccountId * Balance))
    (root_key : AccountId) (parachain_id : ParaId) : GenesisConfig.t :=
  let authorities := make_genesis_authorities in
  {| GenesisConfig.system := {| SystemConfig.code := wasm_binary_unwrap |};
     GenesisConfig.sudo := {| SudoConfig.key := Some root_key |};
     GenesisConfig.parachain_info :=
       {| ParachainInfoConfig.parachain_id := parachain_id |};
     GenesisConfig.balances := {| BalancesConfig.balances := balances |};
     GenesisConfig.vesting := {| VestingConfig.vesting := [] |};
     GenesisConfig.session :=
       {| SessionConfig.keys :=
            map (fun x => (x.1, x.1, session_keys x.2)) authorities |};
     GenesisConfig.aura := {| AuraConfig.authorities := [] |};
     GenesisConfig.aura_ext := tt;
     GenesisConfig.collator_selection :=
       {| CollatorSelectionConfig.desired_candidates := 32;
          CollatorSelectionConfig.candidacy_bond := 3200000 * ASTR;
          CollatorSelectionConfig.invulnerables := map (fun x => x.1) authorities |};
     GenesisConfig.evm :=
       {| EVMConfig.accounts :=
            collect_btree_map
              (map (fun addr =>
                      (addr, {| GenesisAccount.nonce := 0;
                                GenesisAccount.balance := 0;
                                GenesisAccount.storage := ∅;
                                GenesisAccount.code := revert_bytecode |}))
                   used_addresses) |};
     GenesisConfig.ethereum := tt;
     GenesisConfig.polkadot_xcm := tt;
     GenesisConfig.assets := tt;
     GenesisConfig.parachain_system := tt;
     GenesisConfig.transaction_payment := tt;
     GenesisConfig.dapp_staking :=
       {| DappStakingConfig.reward_portion :=
            [Permill_from_percent 40; Permill_from_percent 30;
             Permill_from_percent 20; Permill_from_percent 10];
          DappStakingConfig.slot_distribution :=
            [Permill_from_percent 10; Permill_from_percent 20;
             Permill_from_percent 30; Permill_from_percent 40];
          DappStakingConfig.tier_thresholds :=
            [DynamicTvlAmount (30000 * ASTR) (20000 * ASTR);
             DynamicTvlAmount (7500 * ASTR) (5000 * ASTR);
             DynamicTvlAmount (20000 * ASTR) (15000 * ASTR);
             FixedTvlAmount (5000 * ASTR)];
          DappStakingConfig.slots_per_tier := [10; 20; 30; 40] |};
     GenesisConfig.inflation :=
       {| InflationConfig.params := InflationParameters_default |} |}.

(** The [sudo_key] and [endowned] values of [get_chain_spec]. *)
Definition get_chain_spec_sudo_key : AccountId := get_account_id_from_seed "Alice".

Definition get_chain_spec_endowned : list (AccountId * Balance) :=
  [(get_account_id_from_seed "Alice", 1000000000 * ASTR);
   (get_account_id_from_seed "Bob", 1000000000 * ASTR)].

(** [move || make_genesis(endowned.clone(), sudo_key.clone(), PARA_ID.into())];
    [clone] of a [Vec] or an [AccountId] is a copy. *)
Definition get_chain_spec_genesis (_ : unit) : GenesisConfig.t :=
  make_genesis get_chain_spec_endowned get_chain_spec_sudo_key (ParaId_from PARA_ID).

Definition get_chain_spec : ChainSpec.t :=
  let properties :=
    json_map_insert "tokenDecimals" (JNumber 18)
      (json_map_insert "tokenSymbol" (JString "ASTR") []) in
  ChainSpec.from_genesis "Astar Testnet" "astar" Development
    get_chain_spec_genesis [] None None None (Some properties)
    {| Extensions.bad_blocks := [];
       Extensions.relay_chain := "tokyo";
       Extensions.para_id := PARA_ID |}.

(** *** Auxiliary definitions of the properties *)

(** The entry that [make_genesis] stores under every precompile address. *)
Definition precompile_genesis_account : GenesisAccount.t :=
  {| GenesisAccount.nonce := 0; GenesisAccount.balance := 0;
     GenesisAccount.storage := ∅; GenesisAccount.code := revert_bytecode |}.

(** Amount of a tier threshold; the lower bound of a dynamic one. *)
Definition threshold_amount (t : TierThreshold) : Balance :=
  match t with
  | DynamicTvlAmount amount _ => amount
  | FixedTvlAmount amount => amount
  end.

(** Each threshold is at least as large as the next one. *)
Fixpoint thresholds_descending (ts : list TierThreshold) : bool :=
  match ts with
  | t1 :: ((t2 :: _) as rest) =>
      (threshold_amount t2 <=? threshold_amount t1) && thresholds_descending rest
  | _ => true
  end.

Definition dynamic_threshold_ok (t : TierThreshold) : Prop :=
  match t with
  | DynamicTvlAmount amount minimum_amount => minimum_amount <= amount
  | FixedTvlAmount _ => True
  end.

(** *** Helper lemmas *)

Lemma collect_btree_map_const_lookup {V} (v : V) (l : list H160)
    (m : gmap H160 V) (addr : H160) :
  foldl (fun m kv => <[kv.1 := kv.2]> m) m (map (fun a => (a, v)) l) !! addr =
  if decide (addr ∈ l) then Some v else m !! addr.
Proof.
  revert m. induction l as [|a l IH]; intros m; simpl.
  - destruct (decide (addr ∈ [])) as [Hin|]; [set_solver | done].
  - rewrite IH. rewrite lookup_insert.
    destruct (decide (addr ∈ l)) as [Hl|Hl];
      destruct (decide (addr ∈ a :: l)) as [Hal|Hal];
      destruct (decide (a = addr)) as [->|Hne]; set_solver.
Qed.

Lemma authority_views_consistent (auths : list (AccountId * AuraId)) :
  Forall (fun x : AccountId * AuraId =>
      In (x.1, x.1, session_keys x.2)
         (map (fun x => (x.1, x.1, session_keys x.2)) auths) /\
      In x.1 (map (fun x => x.1) auths)) auths /\
  Forall (fun a => exists k, In (a, k) auths) (map (fun x => x.1) auths).
Proof.
  split.
  - apply Forall_forall. intros x Hx. apply list_elem_of_In in Hx. split.
    + exact (in_map (fun x => (x.1, x.1, session_keys x.2)) _ _ Hx).
    + exact (in_map (fun x => x.1) _ _ Hx).
  - apply Forall_forall. intros a Ha. apply list_elem_of_In, in_map_iff in Ha.
    destruct Ha as [[a' k] [Heq Hin]]. simpl in Heq. subst a'. by exists k.
Qed.

(** *** Properties of the genesis assembler *)

(** C1: for every authority pair (a, k) of the list used by [make_genesis],
    the session keys hold an entry binding a to k and the invulnerable set
    holds a; every invulnerable is the account of some authority pair. *)
Theorem make_genesis_authority_consistency balances root_key parachain_id :
  let g := make_genesis balances root_key parachain_id in
  Forall (fun x : AccountId * AuraId =>
      In (x.1, x.1, session_keys x.2) (SessionConfig.keys (GenesisConfig.session g)) /\
      In x.1 (CollatorSelectionConfig.invulnerables
                (GenesisConfig.collator_selection g)))
    make_genesis_authorities /\
  Forall (fun a => exists k, In (a, k) make_genesis_authorities)
    (CollatorSelectionConfig.invulnerables (GenesisConfig.collator_selection g)).
Proof. exact (authority_views_consistent make_genesis_authorities). Qed.

(** C2: every address of [Precompiles::used_addresses()] has exactly one
    entry in the EVM account map, with the revert stub as code and zero
    nonce, balance and storage; the map has no other key. *)
Theorem make_genesis_precompiles_seeded balances root_key parachain_id :
  let accs := EVMConfig.accounts
                (GenesisConfig.evm (make_genesis balances root_key parachain_id)) in
  Forall (fun addr => accs !! addr = Some precompile_genesis_account) used_addresses /\
  (forall addr, is_Some (accs !! addr) <-> In addr used_addresses).
Proof.
  simpl. unfold collect_btree_map. split.
  - apply Forall_forall. intros addr Hin.
    rewrite (collect_btree_map_const_lookup precompile_genesis_account).
    by rewrite decide_True.
  - intros addr.
    rewrite (collect_btree_map_const_lookup precompile_genesis_account).
    rewrite <- list_elem_of_In.
    destruct (decide (addr ∈ used_addresses)) as [H|H].
    + split; [done | by eexists].
    + rewrite lookup_empty. split; [intros [? Hx]; discriminate | done].
Qed.

(** C3: the reward portions and the slot distribution of the staking
    schedule each sum to exactly one [Permill]; there are as many tier
    thresholds as slot counts. *)
Theorem make_genesis_dapp_staking_schedule_valid balances root_key parachain_id :
  let ds := GenesisConfig.dapp_staking (make_genesis balances root_key parachain_id) in
  permill_sum (DappStakingConfig.reward_portion ds) = permill_parts Permill_one /\
  permill_sum (DappStakingConfig.slot_distribution ds) = permill_parts Permill_one /\
  length (DappStakingConfig.tier_thresholds ds) =
    length (DappStakingConfig.slots_per_tier ds).
Proof. repeat split. Qed.

(** C4: the genesis of [get_chain_spec] has the two endowments as balances,
    Alice as sudo key, the two session-key entries Alice -> aura key of
    Alice and Bob -> aura key of Bob, and the invulnerables Alice and Bob. *)
Theorem get_chain_spec_dev_scenario :
  let alice := get_account_id_from_seed "Alice" in
  let bob := get_account_id_from_seed "Bob" in
  let g := ChainSpec.genesis get_chain_spec tt in
  BalancesConfig.balances (GenesisConfig.balances g) =
    [(alice, 1000000000 * ASTR); (bob, 1000000000 * ASTR)] /\
  SudoConfig.key (GenesisConfig.sudo g) = Some alice /\
  SessionConfig.keys (GenesisConfig.session g) =
    [(alice, alice, session_keys (get_from_seed_aura "Alice"));
     (bob, bob, session_keys (get_from_seed_aura "Bob"))] /\
  CollatorSelectionConfig.invulnerables (GenesisConfig.collator_selection g) =
    [alice; bob].
Proof. repeat split. Qed.

(** C5: the tier thresholds of the genesis are not ordered from highest to
    lowest amount: the second threshold (7500 ASTR) is below the third
    (20000 ASTR) whenever the unit [ASTR] is positive. *)
Theorem make_genesis_tier_thresholds_not_descending balances root_key parachain_id :
  0 < ASTR ->
  map threshold_amount
    (DappStakingConfig.tier_thresholds
       (GenesisConfig.dapp_staking (make_genesis balances root_key parachain_id))) =
    [30000 * ASTR; 7500 * ASTR; 20000 * ASTR; 5000 * ASTR] /\
  thresholds_descending
    (DappStakingConfig.tier_thresholds
       (GenesisConfig.dapp_staking (make_genesis balances root_key parachain_id))) = false.
Proof.
  intros HA. split; [reflexivity|]. simpl.
  replace (7500 * ASTR <=? 30000 * ASTR) with true by (symmetry; apply N.leb_le; lia).
  replace (20000 * ASTR <=? 7500 * ASTR) with false by (symmetry; apply N.leb_gt; lia).
  reflexivity.
Qed.

(** C6 (as amended): the authority list and the staking schedule are built
    inside [make_genesis]; whatever the caller passes, the session keys and
    the invulnerables are those of the fixed list [make_genesis_authorities]
    (Alice and Bob) and the staking schedule is the same. *)
Theorem make_genesis_fixed_authorities_and_schedule b1 r1 p1 b2 r2 p2 :
  let g1 := make_genesis b1 r1 p1 in
  let g2 := make_genesis b2 r2 p2 in
  SessionConfig.keys (GenesisConfig.session g1) =
    map (fun x => (x.1, x.1, session_keys x.2)) make_genesis_authorities /\
  CollatorSelectionConfig.invulnerables (GenesisConfig.collator_selection g1) =
    map (fun x => x.1) make_genesis_authorities /\
  GenesisConfig.session g1 = GenesisConfig.session g2 /\
  GenesisConfig.collator_selection g1 = GenesisConfig.collator_selection g2 /\
  GenesisConfig.dapp_staking g1 = GenesisConfig.dapp_staking g2.
Proof. repeat split. Qed.

(** C7: any two invocations of the genesis producer stored in the chain
    spec give the same genesis, namely [make_genesis] of the captured
    endowments, sudo key and parachain id. *)
Theorem get_chain_spec_genesis_idempotent (u v : unit) :
  ChainSpec.genesis get_chain_spec u = ChainSpec.genesis get_chain_spec v /\
  ChainSpec.genesis get_chain_spec u =
    make_genesis get_chain_spec_endowned get_chain_spec_sudo_key (ParaId_from PARA_ID).
Proof. split; reflexivity. Qed.

(** C8: every dynamic tier threshold of the genesis has its amount at least
    its minimum amount. *)
Theorem make_genesis_dynamic_thresholds_above_minimum balances root_key parachain_id :
  Forall dynamic_threshold_ok
    (DappStakingConfig.tier_thresholds
       (GenesisConfig.dapp_staking (make_genesis balances root_key parachain_id))).
Proof. repeat constructor; simpl; lia. Qed.

(** C9: the parachain id inside the genesis of [get_chain_spec] is the
    [para_id] of its extensions, both [PARA_ID] = 2006. *)
Theorem get_chain_spec_para_id_consistent :
  ParachainInfoConfig.parachain_id
    (GenesisConfig.parachain_info (ChainSpec.genesis get_chain_spec tt)) =
    Extensions.para_id (ChainSpec.extensions get_chain_spec) /\
  Extensions.para_id (ChainSpec.extensions get_chain_spec) = PARA_ID /\
  PARA_ID = 2006.
Proof. repeat split. Qed.

(** C10: the aura authorities of every assembled genesis are empty. *)
Theorem make_genesis_aura_authorities_empty balances root_key parachain_id :
  AuraConfig.authorities (GenesisConfig.aura (make_genesis balances root_key parachain_id)) = [].
Proof. reflexivity. Qed.

(** *** Further properties of the assembler *)


(** Each session-key entry names the same account as owner and as
    validator, and the owners, in order, are exactly the invulnerables. *)
Theorem make_genesis_session_invulnerables_aligned balances root_key parachain_id :
  let g := make_genesis balances root_key parachain_id in
  Forall (fun e : AccountId * AccountId * SessionKeys.t => e.1.1 = e.1.2)
    (SessionConfig.keys (GenesisConfig.session g)) /\
  map (fun e : AccountId * AccountId * SessionKeys.t => e.1.1)
    (SessionConfig.keys (GenesisConfig.session g)) =
    CollatorSelectionConfig.invulnerables (GenesisConfig.collator_selection g).
Proof. simpl. split; repeat constructor. Qed.

(** Without repeated precompile addresses, the EVM genesis map has one
    account per address. *)
Theorem make_genesis_precompile_count balances root_key parachain_id :
  NoDup used_addresses ->
  size (EVMConfig.accounts
          (GenesisConfig.evm (make_genesis balances root_key parachain_id))) =
    length used_addresses.
Proof.
  intros Hnd. simpl. unfold collect_btree_map.
  rewrite <- size_dom, <- (size_list_to_set (C:=gset H160) used_addresses) by exact Hnd.
  apply set_size_proper. intros addr.
  rewrite elem_of_dom, elem_of_list_to_set.
  rewrite (collect_btree_map_const_lookup precompile_genesis_account).
  destruct (decide (addr ∈ used_addresses)) as [H|H].
  - split; [done | by eexists].
  - rewrite lookup_empty. split; [intros [? Hx]; discriminate | done].
Qed.

(** In the genesis of [get_chain_spec], every invulnerable collator holds
    an endowment of at least the candidacy bond. *)
Theorem get_chain_spec_invulnerables_bonded :
  let g := ChainSpec.genesis get_chain_spec tt in
  Forall (fun a => exists b,
      In (a, b) (BalancesConfig.balances (GenesisConfig.balances g)) /\
      CollatorSelectionConfig.candidacy_bond (GenesisConfig.collator_selection g) <= b)
    (CollatorSelectionConfig.invulnerables (GenesisConfig.collator_selection g)).
Proof.
  simpl. repeat constructor;
    eexists; (split; [simpl; auto | lia]).
Qed.

(** In the genesis of [get_chain_spec], the sudo key and the owner of every
    session-key entry hold a balance entry. *)
Theorem get_chain_spec_roles_endowed :
  let g := ChainSpec.genesis get_chain_spec tt in
  (forall k, SudoConfig.key (GenesisConfig.sudo g) = Some k ->
     exists b, In (k, b) (BalancesConfig.balances (GenesisConfig.balances g))) /\
  Forall (fun e : AccountId * AccountId * SessionKeys.t => exists b,
      In (e.1.1, b) (BalancesConfig.balances (GenesisConfig.balances g)))
    (SessionConfig.keys (GenesisConfig.session g)).
Proof.
  simpl. split.
  - intros k Hk. injection Hk as <-. eexists. left. reflexivity.
  - repeat constructor; eexists; simpl; auto.
Qed.

End Runtime.

(** ** Evaluation at the concrete instance *)

Abbreviation dev_make_genesis :=
  (make_genesis dev_ASTR dev_wasm_binary dev_used_addresses
     dev_get_from_seed_sr25519 dev_get_from_seed_aura dev_into_account
     dev_inflation_default).

Example dev_make_genesis_session_keys :
  SessionConfig.keys (GenesisConfig.session (dev_make_genesis [] 7 2006)) =
    [(1001, 1001, session_keys 2001); (1002, 1002, session_keys 2002)].
Proof. reflexivity. Qed.

Example dev_make_genesis_precompile_lookup :
  EVMConfig.accounts (GenesisConfig.evm (dev_make_genesis [] 7 2006)) !! 1024 =
    Some precompile_genesis_account /\
  EVMConfig.accounts (GenesisConfig.evm (dev_make_genesis [] 7 2006)) !! 3 = None.
Proof. split; vm_compute; reflexivity. Qed.

(** Witness of C5 at one token = 10^18 units. *)
Lemma make_genesis_tier_thresholds_not_descending_witness :
  0 < dev_ASTR /\
  thresholds_descending
    (DappStakingConfig.tier_thresholds
       (GenesisConfig.dapp_staking (dev_make_genesis [] 7 2006))) = false.
Proof.
  assert (HA : 0 < dev_ASTR) by (vm_compute; reflexivity).
  split; [exact HA|].
  exact (proj2 (make_genesis_tier_thresholds_not_descending dev_ASTR
                  dev_wasm_binary dev_used_addresses dev_get_from_seed_sr25519
                  dev_get_from_seed_aura dev_into_account dev_inflation_default
                  [] 7 2006 HA)).
Defined.

(** C6, counterexample: the authority list is not supplied by the caller.
    No call of [make_genesis] yields the session keys of the authority list
    made of Charlie alone: every call yields those of Alice and Bob. *)
Lemma make_genesis_authorities_not_caller_supplied :
  ~ (forall auths : list (AccountId * AuraId),
       exists balances root_key parachain_id,
         SessionConfig.keys
           (GenesisConfig.session (dev_make_genesis balances root_key parachain_id)) =
         map (fun x => (x.1, x.1, session_keys x.2)) auths).
Proof.
  intros H.
  destruct (H [(dev_into_account (dev_get_from_seed_sr25519 "Charlie"),
                dev_get_from_seed_aura "Charlie")]) as (b & r & p & Heq).
  vm_compute in Heq. discriminate Heq.
Qed.

(** [Permill::from_percent], as used for the staking schedule: the result
    never exceeds one, and below 100 percent it is exact. *)
Theorem Permill_from_percent_capped (x : u32) :
  permill_parts (Permill_from_percent x) <= permill_parts Permill_one /\
  (x <= 100 -> permill_parts (Permill_from_percent x) = x * 10000).
Proof.
  unfold Permill_from_percent, Permill_one; cbn [permill_parts].
  change (1000000 / 100) with 10000.
  destruct (N.ltb_spec 100 x); split; intros; lia.
Qed.


Lemma make_genesis_precompile_count_witness :
  NoDup dev_used_addresses /\
  size (EVMConfig.accounts (GenesisConfig.evm (dev_make_genesis [] 7 2006))) = 3%nat.
Proof.
  assert (H : NoDup dev_used_addresses) by (apply (bool_decide_unpack _); vm_compute; exact I).
  split; [exact H|].
  exact (make_genesis_precompile_count dev_ASTR dev_wasm_binary dev_used_addresses
           dev_get_from_seed_sr25519 dev_get_from_seed_aura dev_into_account
           dev_inflation_default [] 7 2006 H).
Defined.
